(** * A dual-sink logging wrapper: console and file loggers with
      optional coloring of the console copy.

    Shallow embedding of [logging/logging_wrapper.py]: the module-level
    tables ([log_levels], [color_levels_template], [default_color_levels],
    [pycharm_color_levels]) and the class [LoggingWrapper] with its
    constructor, its three helpers and its six public logging methods;
    and of [convert_list_to_str] from [genutils.py]. *)

From Stdlib Require Import ZArith String Ascii List DecimalString.
From stdpp Require Import base option gmap strings.

Local Open Scope Z_scope.

(** ** Python values that reach [str.format] *)

Module Py.

(** The two kinds of objects the wrapper hands to [str.format]: the
    integer color codes and the text of the message. *)
Inductive obj : Type :=
| Int (n : Z)
| Str (s : string).

(** [str(o)], the conversion an empty replacement field applies. *)
Definition str (o : obj) : string :=
  match o with
  | Int n => NilZero.string_of_int (Z.to_int n)
  | Str s => s
  end.

(** [tmpl.format(a1, a2, ...)] for templates whose braces all belong to
    auto-numbered fields [{}], as every template of the module is.
    A field takes the next argument; surplus arguments are ignored.
    [None] stands for the exception raised when the fields outnumber the
    arguments, and is also the answer for brace syntax other than [{}],
    which this embedding does not cover. *)
Fixpoint format (tmpl : string) (args : list obj) : option string :=
  match tmpl with
  | EmptyString => Some EmptyString
  | String "{" (String "}" rest) =>
      match args with
      | a :: args' =>
          match format rest args' with
          | Some out => Some (str a +:+ out)
          | None => None
          end
      | [] => None
      end
  | String "{" _ => None
  | String "}" _ => None
  | String ch rest =>
      match format rest args with
      | Some out => Some (String ch out)
      | None => None
      end
  end.

End Py.

(** ** Module-level tables *)

(** The escape character, written ["\033"] in the source. *)
Definition ESC : string := String "027"%char EmptyString.

Definition log_levels : list string :=
  ["debug"; "info"; "warning"; "error"; "exception"; "critical"].

Definition color_levels_template : gmap string string :=
  list_to_map
    [ ("debug",     ESC +:+ "[{}m{}" +:+ ESC +:+ "[0m");
      ("info",      ESC +:+ "[{}m{}" +:+ ESC +:+ "[0m");
      ("warning",   ESC +:+ "[{}m{}" +:+ ESC +:+ "[0m");
      ("error",     ESC +:+ "[{}m{}" +:+ ESC +:+ "[0m");
      ("exception", ESC +:+ "[{}m{}" +:+ ESC +:+ "[0m");
      ("critical",  ESC +:+ "[7;31;{}m{}" +:+ ESC +:+ "[0m") ].

(** Level colors for the standard Unix terminal. *)
Definition default_color_levels : gmap string Z :=
  list_to_map
    [ ("debug", 36); ("info", 32); ("warning", 33);
      ("error", 31); ("exception", 31); ("critical", 31) ].

(** Level colors for the PyCharm terminal. *)
Definition pycharm_color_levels : gmap string Z :=
  list_to_map
    [ ("debug", 34); ("info", 36); ("warning", 32);
      ("error", 31); ("exception", 31); ("critical", 31) ].

(** ** Messages, loggers and the observable effect *)

(** An [Exception] object, seen through the two attributes the wrapper
    reads: [exc.__class__.__name__] and [exc.__str__()]. *)
Record PyException : Type := {
  exc_class_name : string;
  exc_str : string
}.

(** The [msg] argument: [str or Exception]. *)
Inductive message : Type :=
| Text (s : string)
| Exc (exc : PyException).

(** What a call can raise.  [SinkError] is whatever a logger method raises
    on its own account; the wrapper neither inspects nor catches it. *)
Inductive raised : Type :=
| KeyError (key : string)
| AttributeError (attr : string)
| FormatError
| SinkError (detail : string).

Inductive outcome (A : Type) : Type :=
| Return (a : A)
| Raise (e : raised).
Arguments Return {A} a.
Arguments Raise {A} e.

(** A logger object: its name and its methods by attribute name.  A method,
    given the text, either returns ([None]) or raises ([Some detail]).
    Only methods are represented: a name is a method of the logger or is
    absent, so statements about a lookup that succeeds are about a lookup
    that finds a method. *)
Record Logger : Type := {
  logger_name : string;
  logger_methods : gmap string (string -> option string)
}.

(** One invocation of a logger method, as an observer of the two sinks
    sees it. *)
Record call : Type := Call {
  call_logger : string;
  call_method : string;
  call_text : string
}.

Record LoggingWrapper : Type := {
  c_logger : Logger;
  f_logger : Logger;
  use_default_colors : bool;
  use_pycharm_colors : bool;
  color_levels : gmap string Z;
  use_colors : bool
}.

(** The store: the wrapper object (the [self] every method receives) and
    the invocations the loggers have received so far, oldest first. *)
Record world : Type := World {
  wrapper : LoggingWrapper;
  calls : list call
}.

(** ** State and exception monad *)

Definition M (A : Type) : Type := world -> outcome A * world.

Global Instance M_ret : MRet M := fun A a w => (Return a, w).

Global Instance M_bind : MBind M := fun A B k m w =>
  match m w with
  | (Return a, w') => k a w'
  | (Raise e, w') => (Raise e, w')
  end.

Definition raise {A : Type} (e : raised) : M A := fun w => (Raise e, w).

(** [self.<field>] *)
Definition attr {A : Type} (field : LoggingWrapper -> A) : M A :=
  fun w => (Return (field (wrapper w)), w).

(** [d[k]] on a dictionary. *)
Definition getitem {V : Type} (d : gmap string V) (k : string) : M V :=
  match d !! k with
  | Some v => mret v
  | None => raise (KeyError k)
  end.

(** [tmpl.format(...)] *)
Definition str_format (tmpl : string) (args : list Py.obj) : M string :=
  match Py.format tmpl args with
  | Some out => mret out
  | None => raise FormatError
  end.

(** Calling the bound method [lg.<name>] on [text]: the invocation reaches
    the logger, which then returns or raises. *)
Definition invoke (lg : Logger) (name : string)
    (method : string -> option string) (text : string) : M unit :=
  fun w =>
    let w' := {| wrapper := wrapper w;
                 calls := calls w ++ [Call (logger_name lg) name text] |} in
    match method text with
    | None => (Return tt, w')
    | Some detail => (Raise (SinkError detail), w')
    end.

(** [lg.__getattribute__(name)] *)
Definition __getattribute__ (lg : Logger) (name : string)
    : M (string -> M unit) :=
  match logger_methods lg !! name with
  | Some method => mret (invoke lg name method)
  | None => raise (AttributeError name)
  end.

(** ** The class [LoggingWrapper] *)

(** The constructor.  Its keyword arguments default to [False], [False]
    and [default_color_levels]. *)
Definition __init__ (c f : Logger) (default_colors pycharm_colors : bool)
    (levels : gmap string Z) : LoggingWrapper :=
  let self_color_levels := levels in
  let self_color_levels :=
    if pycharm_colors then pycharm_color_levels else self_color_levels in
  let self_use_colors :=
    if default_colors || pycharm_colors then true else false in
  {| c_logger := c;
     f_logger := f;
     use_default_colors := default_colors;
     use_pycharm_colors := pycharm_colors;
     color_levels := self_color_levels;
     use_colors := self_use_colors |}.

Definition _get_error_msg (exc : PyException) : M string :=
  error_msg ← str_format "[{}] {}"
                 [Py.Str (exc_class_name exc); Py.Str (exc_str exc)];
  mret error_msg.

Definition _set_color (msg : string) (level : string) : M string :=
  levels ← attr color_levels;
  color ← getitem levels level;
  tmpl ← getitem color_levels_template level;
  str_format tmpl [Py.Int color; Py.Str msg].

Definition _call_loggers (msg : message) (level : string) : M unit :=
  msg ← match msg with
        | Exc exc => _get_error_msg exc
        | Text s => mret s
        end;
  c ← attr c_logger;
  c_logger_method ← __getattribute__ c level;
  f ← attr f_logger;
  f_logger_method ← __getattribute__ f level;
  colored ← attr use_colors;
  c_msg ← (if colored : bool then _set_color msg level else mret msg);
  c_logger_method c_msg;;
  f_logger_method msg.

Definition debug (msg : message) : M unit := _call_loggers msg "debug".
Definition info (msg : message) : M unit := _call_loggers msg "info".
Definition warning (msg : message) : M unit := _call_loggers msg "warning".
Definition error (msg : message) : M unit := _call_loggers msg "error".
Definition exception (msg : message) : M unit := _call_loggers msg "exception".
Definition critical (msg : message) : M unit := _call_loggers msg "critical".

(** ** The six severities *)

Inductive Severity : Type :=
| DEBUG | INFO | WARNING | ERROR | EXCEPTION | CRITICAL.

Definition level_name (L : Severity) : string :=
  match L with
  | DEBUG => "debug"
  | INFO => "info"
  | WARNING => "warning"
  | ERROR => "error"
  | EXCEPTION => "exception"
  | CRITICAL => "critical"
  end.

(** The public method named after [L]. *)
Definition log (L : Severity) : message -> M unit :=
  match L with
  | DEBUG => debug
  | INFO => info
  | WARNING => warning
  | ERROR => error
  | EXCEPTION => exception
  | CRITICAL => critical
  end.

(** A logger that accepts every text on each of the six level methods. *)
Definition recorder (name : string) : Logger :=
  {| logger_name := name;
     logger_methods :=
       list_to_map (map (fun l => (l, fun _ : string => None)) log_levels) |}.

(** ** Reference texts *)

(** The pattern stored for [L] in [color_levels_template]. *)
Definition level_template (L : Severity) : string :=
  match L with
  | CRITICAL => ESC +:+ "[7;31;{}m{}" +:+ ESC +:+ "[0m"
  | _ => ESC +:+ "[{}m{}" +:+ ESC +:+ "[0m"
  end.

(** The pattern of [L] with the color code and the text filled in. *)
Definition paint (L : Severity) (code : Z) (text : string) : string :=
  match L with
  | CRITICAL =>
      ESC +:+ "[7;31;" +:+ Py.str (Py.Int code) +:+ "m" +:+ text +:+ ESC +:+ "[0m"
  | _ =>
      ESC +:+ "[" +:+ Py.str (Py.Int code) +:+ "m" +:+ text +:+ ESC +:+ "[0m"
  end.

(** The text a message stands for once an exception has been rendered. *)
Definition normal_text (msg : message) : string :=
  match msg with
  | Text s => s
  | Exc exc => "[" +:+ exc_class_name exc +:+ "] " +:+ exc_str exc
  end.

(** [lg] has a method named [level], and that method returns on [text]. *)
Definition responds (lg : Logger) (level text : string) : bool :=
  match logger_methods lg !! level with
  | Some method =>
      match method text with
      | None => true
      | Some _ => false
      end
  | None => false
  end.

(** [lg] has the method named after [L], and it returns on every text. *)
Definition serves (lg : Logger) (L : Severity) : Prop :=
  forall text, responds lg (level_name L) text = true.

(** [OSError("disk full")] *)
Definition OSError_disk_full : PyException :=
  {| exc_class_name := "OSError"; exc_str := "disk full" |}.

(** The console-bound copy of a normalized text: painted when the wrapper
    uses colors, the text itself otherwise.  [None] when colors are on and
    the active table has no entry for the level. *)
Definition console_copy (self : LoggingWrapper) (L : Severity)
    (text : string) : option string :=
  if use_colors self
  then match color_levels self !! level_name L with
       | Some code => Some (paint L code text)
       | None => None
       end
  else Some text.

(** The levels both presets color with code 31. *)
Definition red_family (L : Severity) : bool :=
  match L with
  | ERROR | EXCEPTION | CRITICAL => true
  | DEBUG | INFO | WARNING => false
  end.

(** A computation is steady when, for a given wrapper, it leaves the
    wrapper as it found it and appends the same invocations with the same
    outcome whatever was recorded before; [Q] holds of a returned value. *)
Definition steady {A : Type} (m : M A) (Q : A -> Prop) : Prop :=
  forall self : LoggingWrapper,
  exists (r : outcome A) (evs : list call),
    (forall t, m (World self t) = (r, World self (t ++ evs))) /\
    (forall a, r = Return a -> Q a).

(** A logger whose six level methods raise on every text. *)
Definition refusing (name detail : string) : Logger :=
  {| logger_name := name;
     logger_methods :=
       list_to_map
         (map (fun l => (l, fun _ : string => Some detail)) log_levels) |}.

(** ** [convert_list_to_str] of [genutils.py] *)

(** [sep.join(items)] *)
Fixpoint str_join (sep : string) (items : list string) : string :=
  match items with
  | [] => ""
  | x :: rest =>
      match rest with
      | [] => x
      | _ :: _ => x +:+ sep +:+ str_join sep rest
      end
  end.

(** [convert_list_to_str(list_)]: each item goes through
    ["'{}'".format(a)], the results are joined with a comma and a space.
    [None] stands for an exception of [str.format]. *)
Definition convert_list_to_str (list_ : list Py.obj) : option string :=
  quoted ← mapM (fun a => Py.format "'{}'" [a]) list_;
  Some (str_join ", " quoted).

(** An item between single quotes, as [convert_list_to_str] writes it. *)
Definition quoted (a : Py.obj) : string := "'" +:+ Py.str a +:+ "'".

(** Does the text contain a single quote? *)
Fixpoint has_quote (s : string) : bool :=
  match s with
  | EmptyString => false
  | String ch rest => if Ascii.eqb ch "'" then true else has_quote rest
  end.

(** ** Running the primitives *)

(** One step of symbolic execution: unfold the monad and the primitives,
    leaving dictionary lookups and formatting for rewriting. *)
Ltac run :=
  cbv beta iota delta
    [mbind mret M_bind M_ret raise attr getitem str_format
     __getattribute__ invoke].

Lemma log_level (L : Severity) (msg : message) :
  log L msg = _call_loggers msg (level_name L).
Proof. destruct L; reflexivity. Qed.

Lemma template_lookup (L : Severity) :
  color_levels_template !! level_name L = Some (level_template L).
Proof. destruct L; vm_compute; reflexivity. Qed.

Lemma format_template (L : Severity) (code : Z) (text : string) :
  Py.format (level_template L) [Py.Int code; Py.Str text]
  = Some (paint L code text).
Proof. destruct L; reflexivity. Qed.

Lemma append_empty_r (s : string) : s +:+ "" = s.
Proof.
  induction s as [|ch s IH]; [reflexivity|].
  change (String ch (s +:+ "") = String ch s). now rewrite IH.
Qed.

Lemma _get_error_msg_run (exc : PyException) (w : world) :
  _get_error_msg exc w = (Return (normal_text (Exc exc)), w).
Proof.
  unfold _get_error_msg, normal_text. run.
  change (Py.format "[{}] {}" _)
    with (Some ("[" +:+ exc_class_name exc +:+ "] " +:+ exc_str exc +:+ "")).
  now rewrite append_empty_r.
Qed.

Lemma _set_color_returns (L : Severity) (code : Z) (text : string) (w : world) :
  color_levels (wrapper w) !! level_name L = Some code ->
  _set_color text (level_name L) w = (Return (paint L code text), w).
Proof.
  intros Hcode. unfold _set_color. run.
  rewrite Hcode. run. rewrite template_lookup, format_template. reflexivity.
Qed.

Lemma _set_color_raises (level text : string) (w : world) :
  color_levels (wrapper w) !! level = None ->
  _set_color text level w = (Raise (KeyError level), w).
Proof. intros Hcode. unfold _set_color. run. now rewrite Hcode. Qed.

Lemma serves_method (lg : Logger) (L : Severity) :
  serves lg L ->
  exists method,
    logger_methods lg !! level_name L = Some method /\
    forall text, method text = None.
Proof.
  unfold serves, responds. intros Hlg.
  destruct (logger_methods lg !! level_name L) as [method|] eqn:Hm.
  - exists method. split; [reflexivity|]. intros text.
    specialize (Hlg text). now destruct (method text).
  - now specialize (Hlg "").
Qed.

(** The text that [_call_loggers] works with after its first statement. *)
Lemma normalize_run {B} (msg : message) (k : string -> M B) (w : world) :
  (match msg with
   | Exc exc => _get_error_msg exc
   | Text s => mret s
   end ≫= k) w = k (normal_text msg) w.
Proof.
  destruct msg as [s|exc]; run; [reflexivity|].
  now rewrite _get_error_msg_run.
Qed.

(** Without colors both loggers are handed the same text. *)
Lemma call_loggers_plain (L : Severity) (msg : message) (w : world) :
  use_colors (wrapper w) = false ->
  serves (c_logger (wrapper w)) L ->
  serves (f_logger (wrapper w)) L ->
  _call_loggers msg (level_name L) w =
  (Return tt,
   {| wrapper := wrapper w;
      calls := calls w ++
        [ Call (logger_name (c_logger (wrapper w))) (level_name L)
            (normal_text msg);
          Call (logger_name (f_logger (wrapper w))) (level_name L)
            (normal_text msg) ] |}).
Proof.
  intros Hoff [mc [Hmc Hc]]%serves_method [mf [Hmf Hf]]%serves_method.
  unfold _call_loggers. rewrite normalize_run. run.
  rewrite Hmc, Hmf, Hoff. run. rewrite Hc, Hf. cbn [wrapper calls].
  now rewrite <- app_assoc.
Qed.

(** With colors the console logger is handed the painted text. *)
Lemma call_loggers_colored (L : Severity) (code : Z) (msg : message)
    (w : world) :
  use_colors (wrapper w) = true ->
  color_levels (wrapper w) !! level_name L = Some code ->
  serves (c_logger (wrapper w)) L ->
  serves (f_logger (wrapper w)) L ->
  _call_loggers msg (level_name L) w =
  (Return tt,
   {| wrapper := wrapper w;
      calls := calls w ++
        [ Call (logger_name (c_logger (wrapper w))) (level_name L)
            (paint L code (normal_text msg));
          Call (logger_name (f_logger (wrapper w))) (level_name L)
            (normal_text msg) ] |}).
Proof.
  intros Hon Hcode [mc [Hmc Hc]]%serves_method [mf [Hmf Hf]]%serves_method.
  unfold _call_loggers. rewrite normalize_run. run.
  rewrite Hmc, Hmf, Hon. rewrite (_set_color_returns L code _ w Hcode).
  run. rewrite Hc, Hf. cbn [wrapper calls].
  now rewrite <- app_assoc.
Qed.

(** With colors and no entry for the level, the lookup raises before any
    logger is called. *)
Lemma call_loggers_missing (level : string) (msg : message) (w : world) :
  use_colors (wrapper w) = true ->
  color_levels (wrapper w) !! level = None ->
  is_Some (logger_methods (c_logger (wrapper w)) !! level) ->
  is_Some (logger_methods (f_logger (wrapper w)) !! level) ->
  _call_loggers msg level w = (Raise (KeyError level), w).
Proof.
  intros Hon Hcode [mc Hmc] [mf Hmf].
  unfold _call_loggers. rewrite normalize_run. run.
  rewrite Hmc, Hmf, Hon. now rewrite (_set_color_raises level _ w Hcode).
Qed.

Lemma recorder_serves (name : string) (L : Severity) :
  serves (recorder name) L.
Proof. intros text. destruct L; vm_compute; reflexivity. Qed.

(** ** Steadiness of every method *)

Section steady.
Context {A B : Type}.

Lemma steady_ret (a : A) (Q : A -> Prop) : Q a -> steady (mret a) Q.
Proof.
  intros Ha self. exists (Return a), []. split.
  - intros t. run. now rewrite app_nil_r.
  - now intros a' [= <-].
Qed.

Lemma steady_raise (e : raised) (Q : A -> Prop) : steady (raise e) Q.
Proof.
  intros self. exists (Raise e), []. split.
  - intros t. run. now rewrite app_nil_r.
  - discriminate.
Qed.

Lemma steady_bind (m : M A) (k : A -> M B) (P : A -> Prop)
    (Q : B -> Prop) :
  steady m P -> (forall a, P a -> steady (k a) Q) -> steady (m ≫= k) Q.
Proof.
  intros Hm Hk self. destruct (Hm self) as (r & evs & Hrun & Hpost).
  destruct r as [a|e].
  - destruct (Hk a (Hpost a eq_refl) self) as (r' & evs' & Hrun' & Hpost').
    exists r', (evs ++ evs'). split; [|exact Hpost'].
    intros t. run. rewrite Hrun, Hrun'. now rewrite app_assoc.
  - exists (Raise e), evs. split; [|discriminate].
    intros t. run. now rewrite Hrun.
Qed.

Lemma steady_attr (field : LoggingWrapper -> A) :
  steady (attr field) (fun _ => True).
Proof.
  intros self. exists (Return (field self)), []. split; [|done].
  intros t. run. cbn [wrapper]. now rewrite app_nil_r.
Qed.

Lemma steady_getitem (d : gmap string A) (k : string) :
  steady (getitem d k) (fun _ => True).
Proof.
  unfold getitem. destruct (d !! k);
    [now apply steady_ret | apply steady_raise].
Qed.
End steady.

Lemma steady_str_format (tmpl : string) (args : list Py.obj) :
  steady (str_format tmpl args) (fun _ => True).
Proof.
  unfold str_format. destruct (Py.format tmpl args);
    [now apply steady_ret | apply steady_raise].
Qed.

Lemma steady_invoke (lg : Logger) (name : string)
    (method : string -> option string) (text : string) :
  steady (invoke lg name method text) (fun _ => True).
Proof.
  intros self. destruct (method text) as [detail|] eqn:Hm.
  - exists (Raise (SinkError detail)), [Call (logger_name lg) name text].
    split; [|discriminate]. intros t. run. now rewrite Hm.
  - exists (Return tt), [Call (logger_name lg) name text].
    split; [|done]. intros t. run. now rewrite Hm.
Qed.

Lemma steady_getattribute (lg : Logger) (name : string) :
  steady (__getattribute__ lg name)
    (fun bound => forall text, steady (bound text) (fun _ => True)).
Proof.
  unfold __getattribute__. destruct (logger_methods lg !! name) as [method|].
  - apply steady_ret. intros text. apply steady_invoke.
  - apply steady_raise.
Qed.

Lemma steady_get_error_msg (exc : PyException) :
  steady (_get_error_msg exc) (fun _ => True).
Proof.
  unfold _get_error_msg.
  eapply steady_bind; [apply steady_str_format|].
  intros error_msg _. now apply steady_ret.
Qed.

Lemma steady_set_color (msg level : string) :
  steady (_set_color msg level) (fun _ => True).
Proof.
  unfold _set_color.
  eapply steady_bind; [apply steady_attr|]. intros levels _.
  eapply steady_bind; [apply steady_getitem|]. intros color _.
  eapply steady_bind; [apply steady_getitem|]. intros tmpl _.
  apply steady_str_format.
Qed.

Lemma steady_call_loggers (msg : message) (level : string) :
  steady (_call_loggers msg level) (fun _ => True).
Proof.
  unfold _call_loggers.
  eapply steady_bind with (P := fun _ => True).
  { destruct msg; [now apply steady_ret | apply steady_get_error_msg]. }
  intros text _.
  eapply steady_bind; [apply steady_attr|]. intros c _.
  eapply steady_bind; [apply steady_getattribute|].
  intros c_logger_method Hc.
  eapply steady_bind; [apply steady_attr|]. intros f _.
  eapply steady_bind; [apply steady_getattribute|].
  intros f_logger_method Hf.
  eapply steady_bind; [apply steady_attr|]. intros colored _.
  eapply steady_bind with (P := fun _ => True).
  { destruct colored; [apply steady_set_color | now apply steady_ret]. }
  intros c_msg _.
  eapply steady_bind; [apply Hc|]. intros _ _. apply Hf.
Qed.

Lemma steady_log (L : Severity) (msg : message) :
  steady (log L msg) (fun _ => True).
Proof. rewrite log_level. apply steady_call_loggers. Qed.

(** ** The constructor *)

Lemma init_use_colors (c f : Logger) (d p : bool) (levels : gmap string Z) :
  use_colors (__init__ c f d p levels) = d || p.
Proof. unfold __init__. cbn [use_colors]. now destruct (d || p). Qed.

Lemma init_color_levels (c f : Logger) (d p : bool)
    (levels : gmap string Z) :
  color_levels (__init__ c f d p levels)
  = if p then pycharm_color_levels else levels.
Proof. reflexivity. Qed.

Lemma pycharm_total (L : Severity) :
  is_Some (pycharm_color_levels !! level_name L).
Proof. destruct L; vm_compute; eauto. Qed.

Lemma default_total (L : Severity) :
  is_Some (default_color_levels !! level_name L).
Proof. destruct L; vm_compute; eauto. Qed.

(** ** Dispatch *)

(** C1.  Each of the six public methods, on a wrapper whose two loggers
    answer the level and whose color table (when colors are on) has an
    entry for it, returns after exactly two logger invocations and changes
    nothing else: first the console logger's method of that name, with the
    painted text when colors are on and the normalized text otherwise,
    then the file logger's method of that name, with the normalized text,
    never painted. *)
Theorem log_two_writes (L : Severity) (msg : message) (w : world) :
  serves (c_logger (wrapper w)) L ->
  serves (f_logger (wrapper w)) L ->
  (use_colors (wrapper w) = false ->
   log L msg w =
   (Return tt,
    {| wrapper := wrapper w;
       calls := calls w ++
         [ Call (logger_name (c_logger (wrapper w))) (level_name L)
             (normal_text msg);
           Call (logger_name (f_logger (wrapper w))) (level_name L)
             (normal_text msg) ] |}))
  /\
  (forall code,
   use_colors (wrapper w) = true ->
   color_levels (wrapper w) !! level_name L = Some code ->
   log L msg w =
   (Return tt,
    {| wrapper := wrapper w;
       calls := calls w ++
         [ Call (logger_name (c_logger (wrapper w))) (level_name L)
             (paint L code (normal_text msg));
           Call (logger_name (f_logger (wrapper w))) (level_name L)
             (normal_text msg) ] |})).
Proof.
  intros Hc Hf. rewrite log_level. split.
  - intros Hoff. now apply call_loggers_plain.
  - intros code Hon Hcode. now apply call_loggers_colored.
Qed.

Lemma log_two_writes_witness :
  log INFO (Text "started")
    (World (__init__ (recorder "console") (recorder "file")
              true false default_color_levels) [])
  = (Return tt,
     World (__init__ (recorder "console") (recorder "file")
              true false default_color_levels)
       [ Call "console" "info" (ESC +:+ "[32mstarted" +:+ ESC +:+ "[0m");
         Call "file" "info" "started" ]).
Proof.
  refine (proj2 (log_two_writes INFO (Text "started")
                   (World (__init__ (recorder "console") (recorder "file")
                             true false default_color_levels) []) _ _)
            32 _ _).
  - intros text. vm_compute. reflexivity.
  - intros text. vm_compute. reflexivity.
  - reflexivity.
  - vm_compute. reflexivity.
Defined.

(** C2.  The constructor sets [use_colors] exactly when one of the two
    flags is set.  With neither flag set, whatever table the caller
    supplies, [use_colors] is false, the table is stored as given, and
    each of the six methods hands a plain text unmodified to both
    loggers. *)
Theorem colors_need_a_flag (c f : Logger) (d p : bool)
    (levels : gmap string Z) (L : Severity) (m : string) (t : list call) :
  serves c L ->
  serves f L ->
  (use_colors (__init__ c f d p levels) = true <-> d = true \/ p = true) /\
  use_colors (__init__ c f false false levels) = false /\
  color_levels (__init__ c f false false levels) = levels /\
  log L (Text m) (World (__init__ c f false false levels) t)
  = (Return tt,
     World (__init__ c f false false levels)
       (t ++ [ Call (logger_name c) (level_name L) m;
               Call (logger_name f) (level_name L) m ])).
Proof.
  intros Hc Hf. split; [|split; [|split]]; try reflexivity.
  - rewrite init_use_colors. destruct d, p; cbn; intuition congruence.
  - rewrite log_level. now apply call_loggers_plain.
Qed.

Lemma colors_need_a_flag_witness :
  log ERROR (Text "boom")
    (World (__init__ (recorder "console") (recorder "file")
              false false {[ "error" := 35 ]}) [])
  = (Return tt,
     World (__init__ (recorder "console") (recorder "file")
              false false {[ "error" := 35 ]})
       [ Call "console" "error" "boom"; Call "file" "error" "boom" ]).
Proof.
  refine (proj2 (proj2 (proj2
            (colors_need_a_flag (recorder "console") (recorder "file")
               false false {[ "error" := 35 ]} ERROR "boom" [] _ _)))).
  - intros text. vm_compute. reflexivity.
  - intros text. vm_compute. reflexivity.
Defined.

(** ** Exceptions as messages *)

(** C3.  An exception is rendered as its class name in brackets, a space
    and its text; [OSError("disk full")] gives "[OSError] disk full".
    Every public method renders it once, before any painting: logging the
    exception is the same computation as logging its rendering, the file
    logger is handed the rendering and the console logger the rendering
    or its painted copy.  A message that is already text is handed on as
    it is. *)
Theorem exception_rendered_once (L : Severity) (msg : message)
    (c_msg : string) (w : world) :
  serves (c_logger (wrapper w)) L ->
  serves (f_logger (wrapper w)) L ->
  console_copy (wrapper w) L (normal_text msg) = Some c_msg ->
  (forall exc w',
     _get_error_msg exc w'
     = (Return ("[" +:+ exc_class_name exc +:+ "] " +:+ exc_str exc), w') /\
     log L (Exc exc) w'
     = log L (Text ("[" +:+ exc_class_name exc +:+ "] " +:+ exc_str exc)) w')
  /\
  (forall w', _get_error_msg OSError_disk_full w'
              = (Return "[OSError] disk full", w')) /\
  (forall s, normal_text (Text s) = s) /\
  log L msg w =
  (Return tt,
   {| wrapper := wrapper w;
      calls := calls w ++
        [ Call (logger_name (c_logger (wrapper w))) (level_name L) c_msg;
          Call (logger_name (f_logger (wrapper w))) (level_name L)
            (normal_text msg) ] |}).
Proof.
  intros Hc Hf Hcopy. split; [|split; [|split]].
  - intros exc w'. split; [apply _get_error_msg_run|].
    rewrite !log_level. unfold _call_loggers. run.
    now rewrite _get_error_msg_run.
  - intros w'. apply _get_error_msg_run.
  - reflexivity.
  - rewrite log_level. unfold console_copy in Hcopy.
    destruct (use_colors (wrapper w)) eqn:Hcolors.
    + destruct (color_levels (wrapper w) !! level_name L) as [code|] eqn:Hcode;
        [|discriminate].
      injection Hcopy as <-. now apply call_loggers_colored.
    + injection Hcopy as <-. now apply call_loggers_plain.
Qed.

Lemma exception_rendered_once_witness :
  log CRITICAL (Exc OSError_disk_full)
    (World (__init__ (recorder "console") (recorder "file")
              false true default_color_levels) [])
  = (Return tt,
     World (__init__ (recorder "console") (recorder "file")
              false true default_color_levels)
       [ Call "console" "critical"
           (ESC +:+ "[7;31;31m[OSError] disk full" +:+ ESC +:+ "[0m");
         Call "file" "critical" "[OSError] disk full" ]).
Proof.
  refine (proj2 (proj2 (proj2
            (exception_rendered_once CRITICAL (Exc OSError_disk_full)
               (ESC +:+ "[7;31;31m[OSError] disk full" +:+ ESC +:+ "[0m")
               (World (__init__ (recorder "console") (recorder "file")
                         false true default_color_levels) []) _ _ _)))).
  - intros text. vm_compute. reflexivity.
  - intros text. vm_compute. reflexivity.
  - vm_compute. reflexivity.
Defined.

(** ** Choice of the color table *)

(** C4.  When [use_pycharm_colors] is set, the wrapper's table is
    [pycharm_color_levels], whatever table the caller passed and whatever
    the other flag. *)
Theorem pycharm_flag_overrides (c f : Logger) (d : bool)
    (levels : gmap string Z) :
  color_levels (__init__ c f d true levels) = pycharm_color_levels.
Proof. reflexivity. Qed.

(** C9.  With both flags set the PyCharm table is the active one and
    colors are on. *)
Theorem both_flags_pycharm (c f : Logger) (levels : gmap string Z) :
  color_levels (__init__ c f true true levels) = pycharm_color_levels /\
  use_colors (__init__ c f true true levels) = true.
Proof. split; reflexivity. Qed.

(** ** The two presets *)

Lemma paint_presets (L : Severity) (text : string) :
  exists c1 c2,
    default_color_levels !! level_name L = Some c1 /\
    pycharm_color_levels !! level_name L = Some c2 /\
    (c1 = c2 <-> red_family L = true) /\
    (paint L c1 text = paint L c2 text <-> red_family L = true).
Proof.
  destruct L;
    [ exists 36, 34 | exists 32, 36 | exists 33, 32
    | exists 31, 31 | exists 31, 31 | exists 31, 31 ];
    (split; [vm_compute; reflexivity|]);
    (split; [vm_compute; reflexivity|]);
    cbn [red_family]; (split; split; try reflexivity; try discriminate);
    intros Heq; vm_compute in Heq; discriminate Heq.
Qed.

(** C5.  The two presets give the same code to error, exception and
    critical and different codes to debug, info and warning.  So, for any
    message, a wrapper on the standard preset and one on the PyCharm
    preset paint the same console text for the first three levels and
    different console texts for the other three; the recorded invocations
    agree in the first case and differ in the second. *)
Theorem presets_differ_below_error (L : Severity) (msg : message)
    (c f : Logger) (levels : gmap string Z) (t : list call) :
  serves c L ->
  serves f L ->
  (default_color_levels !! level_name L = pycharm_color_levels !! level_name L
   <-> red_family L = true) /\
  (forall text,
     fst (_set_color text (level_name L)
            (World (__init__ c f true false default_color_levels) t))
     = fst (_set_color text (level_name L)
              (World (__init__ c f false true levels) t))
     <-> red_family L = true) /\
  (calls (snd (log L msg
                 (World (__init__ c f true false default_color_levels) t)))
   = calls (snd (log L msg (World (__init__ c f false true levels) t)))
   <-> red_family L = true).
Proof.
  intros Hc Hf. split; [|split].
  - destruct (paint_presets L "") as (c1 & c2 & H1 & H2 & Hcodes & _).
    rewrite H1, H2, <- Hcodes. split; congruence.
  - intros text.
    destruct (paint_presets L text) as (c1 & c2 & H1 & H2 & _ & Hpaint).
    rewrite (_set_color_returns L c1), (_set_color_returns L c2) by assumption.
    cbn [fst]. rewrite <- Hpaint. split; congruence.
  - destruct (paint_presets L (normal_text msg))
      as (c1 & c2 & H1 & H2 & _ & Hpaint).
    rewrite !log_level.
    rewrite (call_loggers_colored L c1), (call_loggers_colored L c2)
      by (assumption || reflexivity).
    cbn [snd calls wrapper]. rewrite <- Hpaint. split.
    + intros Heq%app_inv_head. now injection Heq.
    + now intros ->.
Qed.

Lemma presets_differ_below_error_witness :
  calls (snd (log DEBUG (Text "x")
                (World (__init__ (recorder "console") (recorder "file")
                          true false default_color_levels) [])))
  <> calls (snd (log DEBUG (Text "x")
                   (World (__init__ (recorder "console") (recorder "file")
                             false true default_color_levels) []))).
Proof.
  intros Heq.
  assert (Hred : red_family DEBUG = true); [|discriminate Hred].
  refine (proj1 (proj2 (proj2
            (presets_differ_below_error DEBUG (Text "x")
               (recorder "console") (recorder "file")
               default_color_levels [] _ _))) Heq).
  - intros text. vm_compute. reflexivity.
  - intros text. vm_compute. reflexivity.
Defined.

(** ** A table without an entry *)

(** C6.  With [use_default_colors] set (and [use_pycharm_colors] left at
    its default), a caller's table without an entry for critical is
    accepted by the constructor, which stores it and turns colors on; the
    call of [critical] then raises the key error of the lookup, before
    either logger is invoked, instead of logging an unpainted text. *)
Theorem critical_without_entry (c f : Logger) (levels : gmap string Z)
    (msg : message) (t : list call) :
  levels !! "critical" = None ->
  is_Some (logger_methods c !! "critical") ->
  is_Some (logger_methods f !! "critical") ->
  color_levels (__init__ c f true false levels) = levels /\
  use_colors (__init__ c f true false levels) = true /\
  critical msg (World (__init__ c f true false levels) t)
  = (Raise (KeyError "critical"), World (__init__ c f true false levels) t).
Proof.
  intros Hnone Hc Hf. split; [reflexivity|]. split; [reflexivity|].
  unfold critical. now apply call_loggers_missing.
Qed.

Lemma critical_without_entry_witness :
  critical (Text "meltdown")
    (World (__init__ (recorder "console") (recorder "file") true false
              (delete "critical" default_color_levels)) [])
  = (Raise (KeyError "critical"),
     World (__init__ (recorder "console") (recorder "file") true false
              (delete "critical" default_color_levels)) []).
Proof.
  refine (proj2 (proj2
            (critical_without_entry (recorder "console") (recorder "file")
               (delete "critical" default_color_levels)
               (Text "meltdown") [] _ _ _))).
  - vm_compute. reflexivity.
  - vm_compute. eauto.
  - vm_compute. eauto.
Defined.

(** With [use_pycharm_colors] set as well, the caller's table is replaced
    by the PyCharm preset, which has the entry, and [critical] returns. *)
Example critical_with_both_flags :
  critical (Text "meltdown")
    (World (__init__ (recorder "console") (recorder "file") true true
              (delete "critical" default_color_levels)) [])
  = (Return tt,
     World (__init__ (recorder "console") (recorder "file") true true
              (delete "critical" default_color_levels))
       [ Call "console" "critical"
           (ESC +:+ "[7;31;31mmeltdown" +:+ ESC +:+ "[0m");
         Call "file" "critical" "meltdown" ]).
Proof. vm_compute. reflexivity. Qed.

(** ** An end-to-end run *)

(** C7.  On a wrapper built with [use_default_colors] over two recording
    loggers, [warning("disk almost full")] is recorded as exactly two
    invocations: the console logger's [warning] with the text wrapped in
    the escape sequences for code 33, then the file logger's [warning]
    with the text alone. *)
Theorem warning_disk_almost_full :
  warning (Text "disk almost full")
    (World (__init__ (recorder "console") (recorder "file")
              true false default_color_levels) [])
  = (Return tt,
     World (__init__ (recorder "console") (recorder "file")
              true false default_color_levels)
       [ Call "console" "warning"
           (ESC +:+ "[33mdisk almost full" +:+ ESC +:+ "[0m");
         Call "file" "warning" "disk almost full" ]).
Proof. vm_compute. reflexivity. Qed.

(** ** Nothing changes between calls *)

(** C8.  A public method leaves the wrapper object as it found it,
    whether it returns or raises.  Called twice in a row with the same
    message, it has the same outcome both times and the loggers receive
    the same invocations the second time as the first. *)
Theorem log_twice (L : Severity) (msg : message) (w : world) :
  let first := log L msg w in
  let second := log L msg (snd first) in
  wrapper (snd first) = wrapper w /\
  wrapper (snd second) = wrapper w /\
  fst second = fst first /\
  exists evs,
    calls (snd first) = calls w ++ evs /\
    calls (snd second) = calls (snd first) ++ evs.
Proof.
  destruct w as [self t]. cbn zeta.
  destruct (steady_log L msg self) as (r & evs & Hrun & _).
  rewrite (Hrun t). cbn [snd fst wrapper calls]. rewrite (Hrun (t ++ evs)).
  cbn [snd fst wrapper calls]. repeat split. now exists evs.
Qed.

(** ** Colors off *)

(** C10.  On a wrapper built with neither flag set, each public method
    returns for every message even when the stored table has no entries:
    the coloring step is skipped, so exactly the two invocations are
    made, console first, both with the normalized text unpainted, and
    nothing else changes.  A public method can raise a key error only on
    a wrapper that has colors on; the key is then the level's name and
    the wrapper's table has no entry for it. *)
Theorem plain_needs_no_table (c f : Logger) (levels : gmap string Z)
    (L : Severity) (msg : message) (t : list call) :
  serves c L ->
  serves f L ->
  log L msg (World (__init__ c f false false levels) t)
  = (Return tt,
     World (__init__ c f false false levels)
       (t ++ [ Call (logger_name c) (level_name L) (normal_text msg);
               Call (logger_name f) (level_name L) (normal_text msg) ])) /\
  (forall w key,
     fst (log L msg w) = Raise (KeyError key) ->
     use_colors (wrapper w) = true /\
     key = level_name L /\
     color_levels (wrapper w) !! level_name L = None).
Proof.
  intros Hc Hf. split.
  - rewrite log_level. now apply call_loggers_plain.
  - intros w key. rewrite log_level. unfold _call_loggers.
    rewrite normalize_run. run.
    destruct (logger_methods (c_logger (wrapper w)) !! level_name L)
      as [mc|]; [|discriminate].
    destruct (logger_methods (f_logger (wrapper w)) !! level_name L)
      as [mf|]; [|discriminate].
    destruct (use_colors (wrapper w)).
    + destruct (color_levels (wrapper w) !! level_name L) as [code|] eqn:Hcode.
      * rewrite (_set_color_returns L code _ w Hcode). run.
        destruct (mc (paint L code (normal_text msg))); [discriminate|].
        destruct (mf (normal_text msg)); discriminate.
      * rewrite (_set_color_raises _ _ w Hcode). cbn [fst].
        intros [= <-]. done.
    + run. destruct (mc (normal_text msg)); [discriminate|].
      destruct (mf (normal_text msg)); discriminate.
Qed.

Lemma plain_needs_no_table_witness :
  log EXCEPTION (Exc OSError_disk_full)
    (World (__init__ (recorder "console") (recorder "file")
              false false ∅) [])
  = (Return tt,
     World (__init__ (recorder "console") (recorder "file") false false ∅)
       [ Call "console" "exception" "[OSError] disk full";
         Call "file" "exception" "[OSError] disk full" ]).
Proof.
  refine (proj1 (plain_needs_no_table (recorder "console") (recorder "file")
                   ∅ EXCEPTION (Exc OSError_disk_full) [] _ _)).
  - intros text. vm_compute. reflexivity.
  - intros text. vm_compute. reflexivity.
Defined.

(** ** The tables and the level names *)

Lemma level_name_elem (L : Severity) : level_name L ∈ log_levels.
Proof. destruct L; unfold log_levels; cbn [level_name]; set_solver. Qed.

Lemma level_of_name (level : string) :
  level ∈ log_levels -> exists L, level = level_name L.
Proof.
  unfold log_levels. rewrite !elem_of_cons, elem_of_nil.
  intros [->|[->|[->|[->|[->|[->|[]]]]]]];
    [ exists DEBUG | exists INFO | exists WARNING
    | exists ERROR | exists EXCEPTION | exists CRITICAL ]; reflexivity.
Qed.

Lemma template_keys (level : string) :
  is_Some (color_levels_template !! level) <-> level ∈ log_levels.
Proof.
  split.
  - intros [tmpl Htmpl]. unfold color_levels_template in Htmpl.
    apply elem_of_list_to_map_2 in Htmpl.
    apply (list_elem_of_fmap_2 fst) in Htmpl. exact Htmpl.
  - intros [L ->]%level_of_name. rewrite template_lookup. eauto.
Qed.

Lemma default_keys (level : string) :
  is_Some (default_color_levels !! level) <-> level ∈ log_levels.
Proof.
  split.
  - intros [code Hcode]. unfold default_color_levels in Hcode.
    apply elem_of_list_to_map_2 in Hcode.
    apply (list_elem_of_fmap_2 fst) in Hcode. exact Hcode.
  - intros [L ->]%level_of_name. apply default_total.
Qed.

Lemma pycharm_keys (level : string) :
  is_Some (pycharm_color_levels !! level) <-> level ∈ log_levels.
Proof.
  split.
  - intros [code Hcode]. unfold pycharm_color_levels in Hcode.
    apply elem_of_list_to_map_2 in Hcode.
    apply (list_elem_of_fmap_2 fst) in Hcode. exact Hcode.
  - intros [L ->]%level_of_name. apply pycharm_total.
Qed.

(** [_set_color] either returns or raises the key error of its level:
    the templates of the module never make [str.format] fail. *)
Lemma _set_color_cases (msg level : string) (w : world) :
  (exists s, _set_color msg level w = (Return s, w)) \/
  _set_color msg level w = (Raise (KeyError level), w).
Proof.
  destruct (color_levels (wrapper w) !! level) as [code|] eqn:Hcode.
  - destruct (color_levels_template !! level) as [tmpl|] eqn:Htmpl.
    + assert (Hin : level ∈ log_levels) by (apply template_keys; eauto).
      apply level_of_name in Hin as [L ->]. left. exists (paint L code msg).
      now apply _set_color_returns.
    + right. unfold _set_color. run. rewrite Hcode. run. now rewrite Htmpl.
  - right. now apply _set_color_raises.
Qed.

(** ** Failures during dispatch *)

(** Once both methods are found and the console copy is made, what is
    left of [_call_loggers] is the two invocations. *)
Lemma call_loggers_reach (L : Severity) (msg : message) (c_msg : string)
    (mc mf : string -> option string) (w : world) :
  logger_methods (c_logger (wrapper w)) !! level_name L = Some mc ->
  logger_methods (f_logger (wrapper w)) !! level_name L = Some mf ->
  console_copy (wrapper w) L (normal_text msg) = Some c_msg ->
  _call_loggers msg (level_name L) w =
  (invoke (c_logger (wrapper w)) (level_name L) mc c_msg;;
   invoke (f_logger (wrapper w)) (level_name L) mf (normal_text msg)) w.
Proof.
  intros Hmc Hmf Hcopy. unfold _call_loggers. rewrite normalize_run. run.
  rewrite Hmc, Hmf. unfold console_copy in Hcopy.
  destruct (use_colors (wrapper w)).
  - destruct (color_levels (wrapper w) !! level_name L) as [code|] eqn:Hcode;
      [|discriminate].
    injection Hcopy as <-.
    now rewrite (_set_color_returns L code _ w Hcode).
  - now injection Hcopy as <-.
Qed.

(** X1.  A logger without the method of the level makes [_call_loggers] raise
    the attribute error before any logger is invoked, whichever logger it
    is and whatever the color table holds. *)
Theorem missing_method_raises (msg : message) (level : string) (w : world) :
  logger_methods (c_logger (wrapper w)) !! level = None \/
  logger_methods (f_logger (wrapper w)) !! level = None ->
  _call_loggers msg level w = (Raise (AttributeError level), w).
Proof.
  intros Hmissing. unfold _call_loggers. rewrite normalize_run. run.
  destruct (logger_methods (c_logger (wrapper w)) !! level) as [mc|] eqn:Hmc;
    [|reflexivity].
  destruct Hmissing as [Hc|Hf]; [discriminate|]. now rewrite Hf.
Qed.

Lemma missing_method_raises_witness :
  _call_loggers (Text "x") "warn"
    (World (__init__ (recorder "console") (recorder "file")
              true false ∅) [])
  = (Raise (AttributeError "warn"),
     World (__init__ (recorder "console") (recorder "file")
              true false ∅) []).
Proof.
  apply (missing_method_raises (Text "x") "warn"
           (World (__init__ (recorder "console") (recorder "file")
                     true false ∅) [])).
  left. vm_compute. reflexivity.
Defined.

(** X2.  When the console logger's method raises, the error reaches the caller
    as it is, the console invocation is the only one recorded and the
    file logger is never invoked. *)
Theorem console_failure_skips_file (L : Severity) (msg : message)
    (c_msg detail : string) (mc mf : string -> option string) (w : world) :
  logger_methods (c_logger (wrapper w)) !! level_name L = Some mc ->
  logger_methods (f_logger (wrapper w)) !! level_name L = Some mf ->
  console_copy (wrapper w) L (normal_text msg) = Some c_msg ->
  mc c_msg = Some detail ->
  log L msg w =
  (Raise (SinkError detail),
   {| wrapper := wrapper w;
      calls := calls w ++
        [ Call (logger_name (c_logger (wrapper w))) (level_name L) c_msg ] |}).
Proof.
  intros Hmc Hmf Hcopy Hraise.
  rewrite log_level, (call_loggers_reach L msg c_msg mc mf) by assumption.
  run. now rewrite Hraise.
Qed.

(** X3.  When the file logger's method raises, the console logger has already
    been invoked: both invocations are recorded and the error reaches the
    caller. *)
Theorem file_failure_after_console (L : Severity) (msg : message)
    (c_msg detail : string) (mc mf : string -> option string) (w : world) :
  logger_methods (c_logger (wrapper w)) !! level_name L = Some mc ->
  logger_methods (f_logger (wrapper w)) !! level_name L = Some mf ->
  console_copy (wrapper w) L (normal_text msg) = Some c_msg ->
  mc c_msg = None ->
  mf (normal_text msg) = Some detail ->
  log L msg w =
  (Raise (SinkError detail),
   {| wrapper := wrapper w;
      calls := calls w ++
        [ Call (logger_name (c_logger (wrapper w))) (level_name L) c_msg;
          Call (logger_name (f_logger (wrapper w))) (level_name L)
            (normal_text msg) ] |}).
Proof.
  intros Hmc Hmf Hcopy Hok Hraise.
  rewrite log_level, (call_loggers_reach L msg c_msg mc mf) by assumption.
  run. rewrite Hok. cbn [wrapper calls]. rewrite Hraise.
  now rewrite <- app_assoc.
Qed.

Lemma console_failure_skips_file_witness :
  log ERROR (Text "boom")
    (World (__init__ (refusing "console" "closed") (recorder "file")
              true false default_color_levels) [])
  = (Raise (SinkError "closed"),
     World (__init__ (refusing "console" "closed") (recorder "file")
              true false default_color_levels)
       [ Call "console" "error" (ESC +:+ "[31mboom" +:+ ESC +:+ "[0m") ]).
Proof.
  refine (console_failure_skips_file ERROR (Text "boom")
            (ESC +:+ "[31mboom" +:+ ESC +:+ "[0m") "closed"
            (fun _ => Some "closed") (fun _ => None)
            (World (__init__ (refusing "console" "closed") (recorder "file")
                      true false default_color_levels) []) _ _ _ _).
  - vm_compute. reflexivity.
  - vm_compute. reflexivity.
  - vm_compute. reflexivity.
  - reflexivity.
Defined.

Lemma file_failure_after_console_witness :
  log ERROR (Text "boom")
    (World (__init__ (recorder "console") (refusing "file" "disk full")
              false false default_color_levels) [])
  = (Raise (SinkError "disk full"),
     World (__init__ (recorder "console") (refusing "file" "disk full")
              false false default_color_levels)
       [ Call "console" "error" "boom"; Call "file" "error" "boom" ]).
Proof.
  refine (file_failure_after_console ERROR (Text "boom") "boom" "disk full"
            (fun _ => None) (fun _ => Some "disk full")
            (World (__init__ (recorder "console")
                      (refusing "file" "disk full")
                      false false default_color_levels) []) _ _ _ _ _).
  - vm_compute. reflexivity.
  - vm_compute. reflexivity.
  - vm_compute. reflexivity.
  - reflexivity.
  - reflexivity.
Defined.

(** X4.  When both loggers have a method of the given name, whatever the
    wrapper, the message and the name, [_call_loggers] leaves the wrapper
    alone and ends in one of three ways: the key error for that name,
    with colors on and no logger invoked; an error of the console
    logger's method, with its invocation alone recorded; or both
    invocations recorded, console first and the file logger with the
    normalized text, after which it returns or the file logger's error
    is raised.  It never raises a formatting error and never invokes the
    file logger first or either logger twice. *)
Theorem call_loggers_outcomes (msg : message) (level : string)
    (mc mf : string -> option string) (w : world) :
  logger_methods (c_logger (wrapper w)) !! level = Some mc ->
  logger_methods (f_logger (wrapper w)) !! level = Some mf ->
  let r := fst (_call_loggers msg level w) in
  let w' := snd (_call_loggers msg level w) in
  let c := c_logger (wrapper w) in
  let f := f_logger (wrapper w) in
  wrapper w' = wrapper w /\
  ((calls w' = calls w /\
    r = Raise (KeyError level) /\
    use_colors (wrapper w) = true)
   \/
   (exists c_msg detail,
      calls w' = calls w ++ [Call (logger_name c) level c_msg] /\
      mc c_msg = Some detail /\
      r = Raise (SinkError detail))
   \/
   (exists c_msg,
      calls w' = calls w ++ [ Call (logger_name c) level c_msg;
                              Call (logger_name f) level (normal_text msg) ] /\
      mc c_msg = None /\
      (r = Return tt \/
       exists detail,
         mf (normal_text msg) = Some detail /\ r = Raise (SinkError detail)))).
Proof.
  intros Hmc Hmf. cbv zeta. unfold _call_loggers. rewrite normalize_run. run.
  rewrite Hmc, Hmf.
  assert (Hsend : forall c_msg,
    let run2 :=
      (invoke (c_logger (wrapper w)) level mc c_msg;;
       invoke (f_logger (wrapper w)) level mf (normal_text msg)) w in
    wrapper (snd run2) = wrapper w /\
    ((exists detail,
        calls (snd run2)
        = calls w ++ [Call (logger_name (c_logger (wrapper w))) level c_msg] /\
        mc c_msg = Some detail /\
        fst run2 = Raise (SinkError detail))
     \/
     (calls (snd run2)
      = calls w ++ [ Call (logger_name (c_logger (wrapper w))) level c_msg;
                     Call (logger_name (f_logger (wrapper w))) level
                       (normal_text msg) ] /\
      mc c_msg = None /\
      (fst run2 = Return tt \/
       exists detail,
         mf (normal_text msg) = Some detail /\
         fst run2 = Raise (SinkError detail))))).
  { intros c_msg. cbv zeta. run.
    destruct (mc c_msg) as [detail|] eqn:Hc; [cbn; eauto 8|].
    cbn [wrapper calls]. rewrite <- app_assoc.
    destruct (mf (normal_text msg)) as [detail|] eqn:Hf; cbn; eauto 10. }
  destruct (use_colors (wrapper w)) eqn:Hcolors.
  - destruct (_set_color_cases (normal_text msg) level w) as [[s ->]| ->];
      [|cbn; eauto 6].
    destruct (Hsend s) as [Hw [(detail & Hcalls & Hc & Hr)|(Hcalls & Hc & Hr)]];
      (split; [exact Hw|]); eauto 10.
  - destruct (Hsend (normal_text msg))
      as [Hw [(detail & Hcalls & Hc & Hr)|(Hcalls & Hc & Hr)]];
      (split; [exact Hw|]); eauto 10.
Qed.

Lemma call_loggers_outcomes_witness :
  wrapper (snd (_call_loggers (Text "x") "debug"
                  (World (__init__ (recorder "console")
                            (refusing "file" "disk full")
                            true false default_color_levels) [])))
  = __init__ (recorder "console") (refusing "file" "disk full")
      true false default_color_levels.
Proof.
  refine (proj1 (call_loggers_outcomes (Text "x") "debug"
                   (fun _ => None) (fun _ => Some "disk full")
                   (World (__init__ (recorder "console")
                             (refusing "file" "disk full")
                             true false default_color_levels) []) _ _)).
  - vm_compute. reflexivity.
  - vm_compute. reflexivity.
Defined.

(** ** Which constructed wrappers can fail *)

(** X5.  Over loggers that answer the level, a wrapper made by the constructor
    fails on a level in one case only: [use_default_colors] set,
    [use_pycharm_colors] not set, and a table without an entry for the
    level; the call then raises the key error of that level.  In every
    other case the call returns. *)
Theorem constructed_wrapper_outcome (c f : Logger) (d p : bool)
    (levels : gmap string Z) (L : Severity) (msg : message) (t : list call) :
  serves c L ->
  serves f L ->
  fst (log L msg (World (__init__ c f d p levels) t))
  = match d, p, levels !! level_name L with
    | true, false, None => Raise (KeyError (level_name L))
    | _, _, _ => Return tt
    end.
Proof.
  intros Hc Hf. rewrite log_level.
  destruct p.
  - destruct (pycharm_total L) as [code Hcode].
    rewrite (call_loggers_colored L code)
      by (assumption || (now destruct d)).
    now destruct d, (levels !! level_name L).
  - destruct d.
    + destruct (levels !! level_name L) as [code|] eqn:Hcode.
      * now rewrite (call_loggers_colored L code) by (assumption || reflexivity).
      * rewrite call_loggers_missing; try reflexivity; try assumption.
        -- apply serves_method in Hc as (mc & Hmc & _). cbn. eauto.
        -- apply serves_method in Hf as (mf & Hmf & _). cbn. eauto.
    + rewrite call_loggers_plain by (assumption || reflexivity).
      now destruct (levels !! level_name L).
Qed.

Lemma constructed_wrapper_outcome_witness :
  fst (log INFO (Text "x")
         (World (__init__ (recorder "console") (recorder "file") true false
                   {[ "debug" := 36 ]}) []))
  = Raise (KeyError "info").
Proof.
  refine (constructed_wrapper_outcome (recorder "console") (recorder "file")
            true false {[ "debug" := 36 ]} INFO (Text "x") [] _ _).
  - intros text. vm_compute. reflexivity.
  - intros text. vm_compute. reflexivity.
Defined.

(** ** What [_set_color] returns *)

Lemma _set_color_returns_inv (text level s : string) (w w' : world) :
  _set_color text level w = (Return s, w') ->
  w' = w /\
  exists L code,
    level = level_name L /\
    color_levels (wrapper w) !! level = Some code /\
    s = paint L code text.
Proof.
  intros Hrun.
  destruct (color_levels (wrapper w) !! level) as [code|] eqn:Hcode;
    [|rewrite (_set_color_raises _ _ _ Hcode) in Hrun; discriminate].
  destruct (color_levels_template !! level) as [tmpl|] eqn:Htmpl.
  - assert (Hin : level ∈ log_levels) by (apply template_keys; eauto).
    apply level_of_name in Hin as [L ->].
    rewrite (_set_color_returns L code _ w Hcode) in Hrun.
    injection Hrun as <- <-. split; [reflexivity|]. now exists L, code.
  - unfold _set_color in Hrun. revert Hrun. run. rewrite Hcode. run.
    rewrite Htmpl. discriminate.
Qed.

(** X6.  [_set_color] returns exactly for the six level names that have an
    entry in the wrapper's table, with the level's pattern filled in, and
    leaves the store as it is. *)
Theorem set_color_characterised (text level s : string) (w w' : world) :
  _set_color text level w = (Return s, w') <->
  w' = w /\
  exists L code,
    level = level_name L /\
    color_levels (wrapper w) !! level = Some code /\
    s = paint L code text.
Proof.
  split; [apply _set_color_returns_inv|].
  intros [-> (L & code & -> & Hcode & ->)].
  now apply _set_color_returns.
Qed.

(** X7.  With colors on, [_call_loggers] cannot serve a method name outside
    the six levels, even if both loggers have the method and the table
    has an entry for the name: the patterns stop at the six levels, and
    the key error is raised before any logger is invoked. *)
Theorem other_method_names_raise (msg : message) (level : string)
    (w : world) :
  level ∉ log_levels ->
  use_colors (wrapper w) = true ->
  is_Some (logger_methods (c_logger (wrapper w)) !! level) ->
  is_Some (logger_methods (f_logger (wrapper w)) !! level) ->
  _call_loggers msg level w = (Raise (KeyError level), w).
Proof.
  intros Hout Hon [mc Hmc] [mf Hmf].
  unfold _call_loggers. rewrite normalize_run. run.
  rewrite Hmc, Hmf, Hon.
  destruct (_set_color_cases (normal_text msg) level w) as [[s Hs]| ->];
    [|reflexivity].
  apply _set_color_returns_inv in Hs as [_ (L & code & -> & _)].
  destruct Hout. apply level_name_elem.
Qed.

Lemma other_method_names_raise_witness :
  _call_loggers (Text "x") "warn"
    (World (__init__
              {| logger_name := "console";
                 logger_methods := {[ "warn" := fun _ : string => None ]} |}
              {| logger_name := "file";
                 logger_methods := {[ "warn" := fun _ : string => None ]} |}
              true false {[ "warn" := 33 ]}) [])
  = (Raise (KeyError "warn"),
     World (__init__
              {| logger_name := "console";
                 logger_methods := {[ "warn" := fun _ : string => None ]} |}
              {| logger_name := "file";
                 logger_methods := {[ "warn" := fun _ : string => None ]} |}
              true false {[ "warn" := 33 ]}) []).
Proof.
  apply other_method_names_raise.
  - unfold log_levels. rewrite !elem_of_cons, elem_of_nil.
    intros [H|[H|[H|[H|[H|[H|[]]]]]]]; discriminate H.
  - reflexivity.
  - vm_compute. eauto.
  - vm_compute. eauto.
Defined.

(** ** The painted text and the message *)

Lemma length_append (a b : string) :
  String.length (a +:+ b) = (String.length a + String.length b)%nat.
Proof.
  induction a as [|ch a IH]; [reflexivity|].
  change (S (String.length (a +:+ b))
          = S (String.length a + String.length b)).
  now rewrite IH.
Qed.

Lemma append_cancel_r (a b s : string) : a +:+ s = b +:+ s -> a = b.
Proof.
  revert b. induction a as [|ch a IH]; intros [|ch' b] Heq.
  - reflexivity.
  - apply (f_equal String.length) in Heq.
    rewrite !length_append in Heq. cbn [String.length] in Heq. lia.
  - apply (f_equal String.length) in Heq.
    rewrite !length_append in Heq. cbn [String.length] in Heq. lia.
  - change (String ch (a +:+ s) = String ch' (b +:+ s)) in Heq.
    injection Heq as -> Heq. f_equal. now apply IH.
Qed.

Lemma paint_inj (L : Severity) (code : Z) (m1 m2 : string) :
  paint L code m1 = paint L code m2 -> m1 = m2.
Proof.
  intros Heq.
  apply (append_cancel_r m1 m2 (ESC +:+ "[0m")).
  destruct L; unfold paint in Heq;
    repeat (apply (inj (String.append _)) in Heq); exact Heq.
Qed.

Lemma paint_longer (L : Severity) (code : Z) (text : string) :
  (String.length text + 7 <= String.length (paint L code text))%nat.
Proof.
  destruct L; unfold paint; rewrite !length_append;
    cbn [String.length ESC]; lia.
Qed.

(** X8.  The text [_set_color] returns is never the message itself (it is at
    least seven characters longer), and the message can be read back from
    it: on one wrapper and one level, two messages painted alike are
    equal. *)
Theorem set_color_keeps_message (m1 m2 level s1 s2 : string)
    (w w1 w2 : world) :
  _set_color m1 level w = (Return s1, w1) ->
  _set_color m2 level w = (Return s2, w2) ->
  s1 <> m1 /\
  (String.length m1 + 7 <= String.length s1)%nat /\
  (s1 = s2 -> m1 = m2).
Proof.
  intros H1 H2.
  apply _set_color_returns_inv in H1 as [_ (L & code & -> & Hcode & ->)].
  apply _set_color_returns_inv in H2 as [_ (L' & code' & HL & Hcode' & ->)].
  assert (L' = L) as -> by (destruct L, L'; (reflexivity || discriminate HL)).
  assert (code' = code) as -> by congruence.
  pose proof (paint_longer L code m1) as Hlen.
  split; [|split].
  - intros Heq. rewrite Heq in Hlen. lia.
  - exact Hlen.
  - apply paint_inj.
Qed.

Lemma set_color_keeps_message_witness :
  ESC +:+ "[33m{}" +:+ ESC +:+ "[0m" <> "{}".
Proof.
  refine (proj1 (set_color_keeps_message "{}" "{}" "warning"
                   (ESC +:+ "[33m{}" +:+ ESC +:+ "[0m")
                   (ESC +:+ "[33m{}" +:+ ESC +:+ "[0m")
                   (World (__init__ (recorder "console") (recorder "file")
                             true false default_color_levels) [])
                   (World (__init__ (recorder "console") (recorder "file")
                             true false default_color_levels) [])
                   (World (__init__ (recorder "console") (recorder "file")
                             true false default_color_levels) []) _ _)).
  - vm_compute. reflexivity.
  - vm_compute. reflexivity.
Defined.

(** X9.  Under either preset, error and exception messages are painted alike,
    while a critical message is painted differently from both, although
    the three levels share the code 31. *)
Theorem critical_painted_apart (text : string) (w : world) :
  color_levels (wrapper w) = default_color_levels \/
  color_levels (wrapper w) = pycharm_color_levels ->
  _set_color text "error" w = _set_color text "exception" w /\
  _set_color text "critical" w <> _set_color text "error" w.
Proof.
  intros Htable.
  assert (Hcodes : color_levels (wrapper w) !! "error" = Some 31 /\
                   color_levels (wrapper w) !! "exception" = Some 31 /\
                   color_levels (wrapper w) !! "critical" = Some 31).
  { destruct Htable as [-> | ->]; repeat split; vm_compute; reflexivity. }
  destruct Hcodes as (He & Hx & Hc).
  pose proof (_set_color_returns ERROR 31 text w He) as Re.
  pose proof (_set_color_returns EXCEPTION 31 text w Hx) as Rx.
  pose proof (_set_color_returns CRITICAL 31 text w Hc) as Rc.
  cbn [level_name] in Re, Rx, Rc. rewrite Re, Rx, Rc.
  split; [reflexivity|]. intros Heq. vm_compute in Heq. discriminate Heq.
Qed.

Lemma critical_painted_apart_witness :
  _set_color "x" "critical"
    (World (__init__ (recorder "console") (recorder "file")
              false true default_color_levels) [])
  <> _set_color "x" "error"
       (World (__init__ (recorder "console") (recorder "file")
                 false true default_color_levels) []).
Proof.
  refine (proj2 (critical_painted_apart "x"
                   (World (__init__ (recorder "console") (recorder "file")
                             false true default_color_levels) []) _)).
  right. reflexivity.
Defined.

(** ** Lists as quoted, comma-separated text *)

Lemma str_join_cons (sep x : string) (rest : list string) :
  str_join sep (x :: rest)
  = x +:+ match rest with
          | [] => ""
          | _ :: _ => sep +:+ str_join sep rest
          end.
Proof. destruct rest; cbn [str_join]; [now rewrite append_empty_r | reflexivity]. Qed.

Lemma append_assoc (a b c : string) : (a +:+ b) +:+ c = a +:+ b +:+ c.
Proof.
  induction a as [|ch a IH]; [reflexivity|].
  change (String ch ((a +:+ b) +:+ c) = String ch (a +:+ b +:+ c)).
  now rewrite IH.
Qed.

Lemma str_join_app (sep : string) (l1 l2 : list string) :
  l1 <> [] -> l2 <> [] ->
  str_join sep (l1 ++ l2) = str_join sep l1 +:+ sep +:+ str_join sep l2.
Proof.
  intros H1 H2. induction l1 as [|x [|y l1] IH]; [done| |].
  - destruct l2; [done|]. reflexivity.
  - change ((x :: y :: l1) ++ l2) with (x :: ((y :: l1) ++ l2)).
    rewrite str_join_cons. change ((y :: l1) ++ l2) with (y :: (l1 ++ l2)).
    cbv iota. change (y :: (l1 ++ l2)) with ((y :: l1) ++ l2).
    rewrite IH by done. rewrite (str_join_cons sep x (y :: l1)).
    cbv iota. now rewrite !append_assoc.
Qed.

Lemma convert_list_to_str_run (list_ : list Py.obj) :
  convert_list_to_str list_ = Some (str_join ", " (map quoted list_)).
Proof.
  unfold convert_list_to_str.
  assert (Hmap : mapM (fun a => Py.format "'{}'" [a]) list_
                 = Some (map quoted list_)).
  { induction list_ as [|a l IH]; [reflexivity|].
    cbn [mapM map]. rewrite IH. reflexivity. }
  now rewrite Hmap.
Qed.

(** X10.  [convert_list_to_str] never raises, and it distributes over the
    concatenation of lists: an empty part adds nothing (the empty list
    gives the empty text), and two non-empty parts are joined by one
    comma and space. *)
Theorem convert_list_to_str_app (l1 l2 : list Py.obj) :
  is_Some (convert_list_to_str (l1 ++ l2)) /\
  convert_list_to_str [] = Some "" /\
  convert_list_to_str (l1 ++ l2)
  = match l1, l2 with
    | [], _ => convert_list_to_str l2
    | _, [] => convert_list_to_str l1
    | _ :: _, _ :: _ =>
        s1 ← convert_list_to_str l1;
        s2 ← convert_list_to_str l2;
        Some (s1 +:+ ", " +:+ s2)
    end.
Proof.
  split; [rewrite convert_list_to_str_run; eauto|]. split; [reflexivity|].
  destruct l1 as [|a l1]; [reflexivity|].
  destruct l2 as [|b l2]; [now rewrite app_nil_r|].
  rewrite !convert_list_to_str_run. cbn [mbind option_bind].
  rewrite map_app. now rewrite str_join_app by done.
Qed.

(** X11.  Quotes inside an item are not escaped: one item that contains the
    text of a separator between quotes is written exactly as two items,
    so different lists can give the same text. *)
Theorem convert_list_to_str_not_escaped (a b : string) :
  convert_list_to_str [Py.Str (a +:+ "', '" +:+ b)]
  = convert_list_to_str [Py.Str a; Py.Str b] /\
  [Py.Str (a +:+ "', '" +:+ b)] <> [Py.Str a; Py.Str b].
Proof.
  split; [|discriminate].
  rewrite !convert_list_to_str_run. f_equal.
  cbn [map str_join]. unfold quoted. cbn [Py.str].
  change ("', '" +:+ b) with ("'" +:+ ", " +:+ "'" +:+ b).
  now rewrite !append_assoc.
Qed.

Lemma quoted_split (x y t1 t2 : string) :
  has_quote x = false -> has_quote y = false ->
  x +:+ "'" +:+ t1 = y +:+ "'" +:+ t2 -> x = y /\ t1 = t2.
Proof.
  revert y. induction x as [|ch x IH]; intros [|ch' y] Hx Hy Heq.
  - change (String "'" t1 = String "'" t2) in Heq.
    injection Heq as Heq. now subst.
  - change (String "'" t1 = String ch' (y +:+ "'" +:+ t2)) in Heq.
    injection Heq as Hch _. subst ch'. discriminate Hy.
  - change (String ch (x +:+ "'" +:+ t1) = String "'" t2) in Heq.
    injection Heq as Hch _. subst ch. discriminate Hx.
  - change (String ch (x +:+ "'" +:+ t1) = String ch' (y +:+ "'" +:+ t2))
      in Heq.
    injection Heq as -> Heq. cbn [has_quote] in Hx, Hy.
    destruct (Ascii.eqb ch' "'"); [discriminate|].
    destruct (IH y Hx Hy Heq) as [-> ->]. done.
Qed.

Lemma join_quoted_cons (x : string) (rest : list string) :
  str_join ", " (quoted (Py.Str x) :: rest)
  = String "'" (x +:+ "'" +:+ match rest with
                               | [] => ""
                               | _ :: _ => ", " +:+ str_join ", " rest
                               end).
Proof.
  rewrite str_join_cons. unfold quoted. cbn [Py.str].
  set (tail := match rest with [] => "" | _ :: _ => _ end).
  change (String "'" ((x +:+ "'") +:+ tail) = String "'" (x +:+ "'" +:+ tail)).
  now rewrite append_assoc.
Qed.

Lemma quoted_join_inj (l1 l2 : list string) :
  Forall (fun s => has_quote s = false) l1 ->
  Forall (fun s => has_quote s = false) l2 ->
  str_join ", " (map quoted (map Py.Str l1))
  = str_join ", " (map quoted (map Py.Str l2)) ->
  l1 = l2.
Proof.
  intros H1. revert l2.
  induction H1 as [|x r1 Hx H1 IH]; intros l2 H2 Heq.
  - destruct l2 as [|y r2]; [reflexivity|].
    cbn [map] in Heq. rewrite join_quoted_cons in Heq. discriminate Heq.
  - destruct H2 as [|y r2 Hy H2].
    { cbn [map] in Heq. rewrite join_quoted_cons in Heq. discriminate Heq. }
    cbn [map] in Heq. rewrite !join_quoted_cons in Heq.
    injection Heq as Heq.
    apply quoted_split in Heq as [-> Htail]; [|assumption..].
    f_equal. apply IH; [assumption|].
    destruct r1 as [|x1 r1], r2 as [|y1 r2];
      [reflexivity | discriminate Htail | discriminate Htail |].
    now apply (inj (String.append ", ")) in Htail.
Qed.

(** X12.  On lists of texts that contain no single quote,
    [convert_list_to_str] loses nothing: two such lists with the same
    result are equal. *)
Theorem convert_list_to_str_inj (l1 l2 : list string) :
  Forall (fun s => has_quote s = false) l1 ->
  Forall (fun s => has_quote s = false) l2 ->
  convert_list_to_str (map Py.Str l1) = convert_list_to_str (map Py.Str l2) ->
  l1 = l2.
Proof.
  intros H1 H2. rewrite !convert_list_to_str_run. intros [= Heq].
  now apply quoted_join_inj.
Qed.

Lemma convert_list_to_str_inj_witness :
  ["CA"; "FR"; "US"] = ["CA"; "FR"; "US"] /\
  convert_list_to_str (map Py.Str ["CA"; "FR"; "US"])
  = Some "'CA', 'FR', 'US'".
Proof.
  split; [|reflexivity].
  apply (convert_list_to_str_inj ["CA"; "FR"; "US"] ["CA"; "FR"; "US"]).
  - repeat constructor.
  - repeat constructor.
  - reflexivity.
Defined.

(** ** The keys of the three tables *)

(** X13.  The pattern table and both presets have exactly the names of
    [log_levels] as keys: a lookup succeeds for the six level names and
    for no other text. *)
Theorem tables_keyed_by_levels (level : string) :
  (is_Some (color_levels_template !! level) <-> level ∈ log_levels) /\
  (is_Some (default_color_levels !! level) <-> level ∈ log_levels) /\
  (is_Some (pycharm_color_levels !! level) <-> level ∈ log_levels).
Proof.
  split; [apply template_keys|]. split; [apply default_keys|apply pycharm_keys].
Qed.
